(** * VirtualModel: the answer-resolving adapter of lmms_eval

    A shallow embedding of [lmms_eval/models/simple/virtual_model.py].
    Python values are a small inductive type, exceptions and the loguru
    log are threaded through a state-and-error monad, and each method of
    the class is a function over an explicit [VirtualModel] record. *)

From stdpp Require Import base option list strings pretty gmap.
From Stdlib Require Import ZArith Lia.

Set Warnings "-register-all".

Open Scope string_scope.
Open Scope list_scope.
Open Scope Z_scope.

(** ** Python values *)

(** The values that travel through a request and a document: [None],
    integers, strings, lists and string-keyed dicts. *)
Inductive pyval :=
| PNone
| PInt (n : Z)
| PStr (s : string)
| PList (items : list pyval)
| PDict (fields : list (string * pyval)).

(** Exceptions, all of them subclasses of Python's [Exception]. *)
Inductive exn :=
| KeyError (key : pyval)
| IndexError (msg : string)
| TypeError (msg : string)
| ValueError (msg : string)
| NotImplementedError (msg : string)
| RuntimeError (msg : string).

Inductive result (A : Type) :=
| Ok (a : A)
| Raise (e : exn).
Arguments Ok {A} a.
Arguments Raise {A} e.

(** ** The log *)

Inductive level := INFO | WARNING | ERROR.

(** One constructor per f-string of the module, carrying the values the
    f-string interpolates. *)
Inductive message :=
| Initialized                       (* "VirtualModel initialized" *)
| UsesPreExisting                   (* "This model will use pre-existing answers from dataset" *)
| LoadedTasks (n : nat)             (* "VirtualModel loaded {len(task_dict)} task instances" *)
| UnexpectedArgumentsLength (n : nat)      (* "Unexpected arguments length: {len(args)}" *)
| UnknownRequestFormat (type_name : string) (* "Unknown request format: {type(request)}" *)
| TaskNotFound (task : pyval) (available : list string)
    (* "Task '{task}' not found in task instances. Available tasks: {list(keys)}" *)
| AnswerIsNone (doc_id task : pyval)
    (* "doc_to_answer returned None for doc_id={doc_id} in task={task}" *)
| DocToAnswerError (doc_id task : pyval) (e : exn).
    (* "Error in doc_to_answer for doc_id={doc_id} in task={task}: {e}" *)

Definition log_record : Type := level * message.
Definition log : Type := list log_record.

(** ** The monad: a write-only log and exceptions *)

Definition M (A : Type) : Type := log → result A * log.

Global Instance M_ret : MRet M := λ A a lg, (Ok a, lg).
Global Instance M_bind : MBind M := λ A B f m lg,
  match m lg with
  | (Ok a, lg') => f a lg'
  | (Raise e, lg') => (Raise e, lg')
  end.

Definition raise {A} (e : exn) : M A := λ lg, (Raise e, lg).
Definition lift {A} (r : result A) : M A := λ lg, (r, lg).
Definition emit (l : level) (m : message) : M unit := λ lg, (Ok tt, lg ++ [(l, m)]).

(** [try: body except Exception as e: handler e]; what the body logged
    before it raised stays in the log. *)
Definition try_except {A} (body : M A) (handler : exn → M A) : M A := λ lg,
  match body lg with
  | (Ok a, lg') => (Ok a, lg')
  | (Raise e, lg') => handler e lg'
  end.

Module eval_logger.
Definition info (m : message) : M unit := emit INFO m.
Definition warning (m : message) : M unit := emit WARNING m.
Definition error (m : message) : M unit := emit ERROR m.
End eval_logger.

(** ** Dicts and sequences *)

(** A Python dict with string keys, in insertion order. *)
Definition dict (V : Type) : Type := list (string * V).

Fixpoint dict_get {V} (d : dict V) (k : string) : option V :=
  match d with
  | [] => None
  | (k', v) :: d' => if String.eqb k' k then Some v else dict_get d' k
  end.

Definition keys {V} (d : dict V) : list string := d.*1.

(** [key in d]: hashing an unhashable key raises. *)
Definition contains {V} (d : dict V) (key : pyval) : result bool :=
  match key with
  | PStr k => Ok (bool_decide (is_Some (dict_get d k)))
  | PList _ => Raise (TypeError "unhashable type: 'list'")
  | PDict _ => Raise (TypeError "unhashable type: 'dict'")
  | _ => Ok false
  end.

(** [d[key]] *)
Definition getitem {V} (d : dict V) (key : pyval) : result V :=
  match key with
  | PStr k => match dict_get d k with
              | Some v => Ok v
              | None => Raise (KeyError key)
              end
  | PList _ => Raise (TypeError "unhashable type: 'list'")
  | PDict _ => Raise (TypeError "unhashable type: 'dict'")
  | _ => Raise (KeyError key)
  end.

(** [l[i]] on a sequence: an index below zero counts from the end. *)
Definition seq_getitem {A} (l : list A) (i : pyval) : result A :=
  match i with
  | PInt n =>
      let n' := if n <? 0 then n + Z.of_nat (length l) else n in
      if n' <? 0 then Raise (IndexError "list index out of range")
      else match l !! Z.to_nat n' with
           | Some x => Ok x
           | None => Raise (IndexError "list index out of range")
           end
  | _ => Raise (TypeError "list indices must be integers or slices")
  end.

(** [a, b, c, d, e, f = args] *)
Definition unpack6 {A} (args : list A) : result (A * A * A * A * A * A) :=
  match args with
  | [a; b; c; d; e; f] => Ok (a, b, c, d, e, f)
  | _ => Raise (ValueError "wrong number of values to unpack (expected 6)")
  end.

(** ** Collaborators *)

(** Modelled from the spec: class Task (lmms_eval.api.task) is not among
    the sources. The spec gives a task a dataset, a mapping from split
    name to an ordered, index-addressable collection of documents, and a
    pure function [doc_to_answer] from a document to an answer, which may
    raise. Subscripting follows Python's mapping and sequence protocols. *)
Record Task := {
  dataset : gmap string (list pyval);
  doc_to_answer : pyval → result pyval
}.

(** [dataset[split]] *)
Definition dataset_getitem (ds : gmap string (list pyval)) (split : pyval)
  : result (list pyval) :=
  match split with
  | PStr s => match ds !! s with
              | Some docs => Ok docs
              | None => Raise (KeyError split)
              end
  | PList _ => Raise (TypeError "unhashable type: 'list'")
  | PDict _ => Raise (TypeError "unhashable type: 'dict'")
  | _ => Raise (KeyError split)
  end.

(** Modelled from the spec: class Instance (lmms_eval.api.instance) is not
    among the sources. A request either is an Instance, which exposes its
    argument tuple as [arguments], or some other object, of which only the
    type name is kept. *)
Inductive Request :=
| Instance (arguments : list pyval)
| Other (type_name : string).

(** [request.arguments] when [hasattr(request, 'arguments')] *)
Definition arguments (request : Request) : option (list pyval) :=
  match request with
  | Instance args => Some args
  | Other _ => None
  end.

Definition type_of (request : Request) : string :=
  match request with
  | Instance _ => "<class 'lmms_eval.api.instance.Instance'>"
  | Other t => t
  end.

(** [str(v)]. On a string it is the identity; the text of a list or of a
    dict is its [repr], which the interpreter supplies. *)
Class PyRuntime := { py_repr : pyval → string }.

Definition str `{PyRuntime} (v : pyval) : string :=
  match v with
  | PNone => "None"
  | PInt n => pretty n
  | PStr s => s
  | PList _ | PDict _ => py_repr v
  end.

(** ** class VirtualModel *)

Record VirtualModel := {
  _batch_size : pyval;
  _rank : Z;
  _world_size : Z;
  _parent_tasks : dict Task
}.

Section VirtualModel.
Context `{PyRuntime}.

(** [__init__(self, batch_size=1, **kwargs)]. The base class [lmms] is
    not among the sources; its initialiser runs first, and lines 30-35
    then assign the four fields. *)
Definition __init__ (batch_size : pyval) (kwargs : dict pyval) : M VirtualModel :=
  let self := {| _batch_size := batch_size;
                 _rank := 0;
                 _world_size := 1;
                 _parent_tasks := [] |} in
  eval_logger.info Initialized;;
  eval_logger.info UsesPreExisting;;
  mret self.

(** [set_parent_tasks(self, task_dict)]; returns the updated [self]. *)
Definition set_parent_tasks (self : VirtualModel) (task_dict : dict Task)
  : M VirtualModel :=
  let self := {| _batch_size := _batch_size self;
                 _rank := _rank self;
                 _world_size := _world_size self;
                 _parent_tasks := task_dict |} in
  eval_logger.info (LoadedTasks (length task_dict));;
  mret self.

(** The body of the [try] block of [generate_until], lines 88-100. *)
Definition answer_of (belong_to_task : Task) (doc doc_id task : pyval)
    (results : list string) : M (list string) :=
  answer ← lift (doc_to_answer belong_to_task doc);
  answer ← match answer with
           | PNone =>
               eval_logger.warning (AnswerIsNone doc_id task);;
               mret (PStr "")
           | PList items =>
               mret (match items with
                     | first :: _ => first
                     | [] => PStr ""
                     end)
           | _ => mret answer
           end;
  mret (results ++ [str answer]).

(** One turn of the [for] loop of [generate_until], lines 59-105: the
    result is the [results] list after the turn. *)
Definition iteration (self : VirtualModel) (request : Request)
    (results : list string) : M (list string) :=
  match arguments request with
  | Some args =>
      if bool_decide (length args = 6%nat) then
        '(_, _, _, doc_id, task, split) ← lift (unpack6 args);
        found ← lift (contains (_parent_tasks self) task);
        if negb found then
          eval_logger.error (TaskNotFound task (keys (_parent_tasks self)));;
          mret (results ++ [""])
        else
          belong_to_task ← lift (getitem (_parent_tasks self) task);
          docs ← lift (dataset_getitem (dataset belong_to_task) split);
          doc ← lift (seq_getitem docs doc_id);
          try_except
            (answer_of belong_to_task doc doc_id task results)
            (λ e,
               eval_logger.error (DocToAnswerError doc_id task e);;
               mret (results ++ [""]))
      else
        eval_logger.error (UnexpectedArgumentsLength (length args));;
        mret (results ++ [""])
  | None =>
      eval_logger.error (UnknownRequestFormat (type_of request));;
      mret (results ++ [""])
  end.

(** The [for] loop, started with [results]. *)
Fixpoint loop (self : VirtualModel) (requests : list Request)
    (results : list string) : M (list string) :=
  match requests with
  | [] => mret results
  | request :: requests' =>
      results ← iteration self request results;
      loop self requests' results
  end.

(** [generate_until(self, requests)] *)
Definition generate_until (self : VirtualModel) (requests : list Request)
  : M (list string) :=
  loop self requests [].

(** [generate_until_multi_round(self, requests)] *)
Definition generate_until_multi_round (self : VirtualModel)
    (requests : list Request) : M (list string) :=
  generate_until self requests.

(** A Python float, never built here: [loglikelihood] only names it in
    its return type. *)
Record pyfloat := { mantissa : Z; exponent : Z }.

(** [loglikelihood(self, requests)] *)
Definition loglikelihood (self : VirtualModel) (requests : list Request)
  : M (list (pyfloat * bool)) :=
  raise (NotImplementedError
    "loglikelihood is not supported in virtual_model mode. This mode only supports generation tasks.").

(** The three read-only properties. *)
Definition batch_size (self : VirtualModel) : pyval := _batch_size self.
Definition rank (self : VirtualModel) : Z := _rank self.
Definition world_size (self : VirtualModel) : Z := _world_size self.

End VirtualModel.

(** ** Derived notions used in the statements *)

Section Notions.
Context `{PyRuntime}.

(** The outcome of a computation, without the log. *)
Definition outcome {A} (m : M A) (lg : log) : result A := (m lg).1.

(** What one request gives when it is resolved on its own: the string
    appended for it, or the exception it raises, and the records it logs. *)
Definition resolve (self : VirtualModel) (request : Request) : result string * log :=
  match iteration self request [] [] with
  | (Ok results, lg) => (Ok (default "" (last results)), lg)
  | (Raise e, lg) => (Raise e, lg)
  end.

(** Lines 74-84 read as a test: does the turn for this request raise
    before the [try] block is entered? *)
Definition lookup_raises (self : VirtualModel) (request : Request) : bool :=
  match arguments request with
  | Some [_; _; _; doc_id; task; split] =>
      match contains (_parent_tasks self) task with
      | Raise _ => true
      | Ok false => false
      | Ok true =>
          match getitem (_parent_tasks self) task with
          | Raise _ => true
          | Ok belong_to_task =>
              match dataset_getitem (dataset belong_to_task) split with
              | Raise _ => true
              | Ok docs =>
                  match seq_getitem docs doc_id with
                  | Raise _ => true
                  | Ok _ => false
                  end
              end
          end
      end
  | _ => false
  end.

(** A request is malformed when it exposes no argument tuple or one
    whose length is not 6; the record logged for it. *)
Definition malformed (request : Request) : Prop :=
  match arguments request with
  | Some args => length args ≠ 6%nat
  | None => True
  end.

Definition malformed_record (request : Request) : log_record :=
  match arguments request with
  | Some args => (ERROR, UnexpectedArgumentsLength (length args))
  | None => (ERROR, UnknownRequestFormat (type_of request))
  end.

(** The calls a harness can make on the adapter. *)
Inductive call :=
| CallSetParentTasks (task_dict : dict Task)
| CallGenerateUntil (requests : list Request)
| CallGenerateUntilMultiRound (requests : list Request)
| CallLoglikelihood (requests : list Request)
| GetBatchSize
| GetRank
| GetWorldSize.

(** The adapter and the log after one call; a call that raises leaves the
    adapter as it is. *)
Definition exec (self : VirtualModel) (c : call) (lg : log) : VirtualModel * log :=
  match c with
  | CallSetParentTasks task_dict =>
      match set_parent_tasks self task_dict lg with
      | (Ok self', lg') => (self', lg')
      | (Raise _, lg') => (self, lg')
      end
  | CallGenerateUntil requests => (self, (generate_until self requests lg).2)
  | CallGenerateUntilMultiRound requests =>
      (self, (generate_until_multi_round self requests lg).2)
  | CallLoglikelihood requests => (self, (loglikelihood self requests lg).2)
  | GetBatchSize | GetRank | GetWorldSize => (self, lg)
  end.

Fixpoint exec_all (self : VirtualModel) (calls : list call) (lg : log)
  : VirtualModel * log :=
  match calls with
  | [] => (self, lg)
  | c :: calls' => let '(self', lg') := exec self c lg in exec_all self' calls' lg'
  end.

End Notions.

(** ** Notions for the further properties *)

(** Can line 74 hash the task field of the request? A request that does
    not reach line 74 counts as harmless. *)
Definition task_hashable (request : Request) : bool :=
  match arguments request with
  | Some [_; _; _; _; task; _] =>
      match task with
      | PList _ | PDict _ => false
      | _ => true
      end
  | _ => true
  end.

(** The registry that the last [set_parent_tasks] among [calls] assigns,
    [current] when there is none. *)
Fixpoint last_registry (calls : list call) (current : dict Task) : dict Task :=
  match calls with
  | [] => current
  | CallSetParentTasks task_dict :: calls' => last_registry calls' task_dict
  | _ :: calls' => last_registry calls' current
  end.

(** The request with its first three fields, the prompt arguments,
    replaced; a request that has not six fields is left as it is. *)
Definition replace_prompt (a b c : pyval) (request : Request) : Request :=
  match request with
  | Instance [_; _; _; doc_id; task; split] => Instance [a; b; c; doc_id; task; split]
  | _ => request
  end.

(** How many strings of an output are empty. *)
Definition count_empty (out : list string) : nat :=
  length (filter (λ s, s = "") out).

(** ** A concrete harness *)

Module Demo.

(** The examples never print a container. *)
Definition runtime : PyRuntime := {| py_repr := λ _, "[...]" |}.

Definition doc (answer : pyval) : pyval :=
  PDict [("question", PStr "what is it?"); ("answer", answer)].

(** [doc_to_answer = lambda doc: doc["answer"]] *)
Definition answer_field (d : pyval) : result pyval :=
  match d with
  | PDict fields => getitem fields (PStr "answer")
  | _ => Raise (TypeError "object is not subscriptable")
  end.

Definition T : Task :=
  {| dataset := {[ "test" := [doc (PStr "dog"); doc PNone; doc (PList []);
                              doc (PStr "cat");
                              doc (PList [PStr "cat"; PStr "dog"]);
                              doc (PInt 42);
                              PStr "broken" ] ]};
     doc_to_answer := answer_field |}.

Definition U : Task :=
  {| dataset := {[ "val" := [doc (PStr "yes")] ]};
     doc_to_answer := answer_field |}.

Definition model (registry : dict Task) : VirtualModel :=
  {| _batch_size := PInt 1; _rank := 0; _world_size := 1;
     _parent_tasks := registry |}.

Definition request (doc_id : Z) (task split : string) : Request :=
  Instance [PStr "ctx"; PDict []; PNone; PInt doc_id; PStr task; PStr split].

Definition short_request : Request :=
  Instance [PStr "ctx"; PInt 3; PStr "T"; PStr "test"].

End Demo.

(** * Theorems *)

(** ** Running the adapter on the concrete harness *)

Section Examples.
Import Demo.
Local Existing Instance runtime.

Example resolve_cat :
  generate_until (model [("T", T)]) [request 3 "T" "test"] [] = (Ok ["cat"], []).
Proof. vm_compute. reflexivity. Qed.

Example resolve_mixed :
  generate_until (model [("T", T)])
    [request 4 "T" "test"; request 2 "T" "test"; request 1 "T" "test";
     request 5 "T" "test"; request (-1) "T" "test"; short_request;
     request 0 "unknown_task" "test"; Other "<class 'int'>"] [] =
  (Ok ["cat"; ""; ""; "42"; ""; ""; ""; ""],
   [(WARNING, AnswerIsNone (PInt 1) (PStr "T"));
    (ERROR, DocToAnswerError (PInt (-1)) (PStr "T")
              (TypeError "object is not subscriptable"));
    (ERROR, UnexpectedArgumentsLength 4);
    (ERROR, TaskNotFound (PStr "unknown_task") ["T"]);
    (ERROR, UnknownRequestFormat "<class 'int'>")]).
Proof. vm_compute. reflexivity. Qed.

End Examples.

(** ** The monad and one turn of the loop *)

Ltac unfold_M :=
  unfold mbind, M_bind, mret, M_ret, lift, raise, try_except,
    eval_logger.info, eval_logger.warning, eval_logger.error, emit in *.

Section Resolution.
Context `{PyRuntime}.
Implicit Types (self : VirtualModel) (request : Request)
  (requests : list Request) (results : list string) (lg : log).

(** A turn depends on [results] and on the log only by appending to them. *)
Lemma iteration_resolve self request results lg :
  iteration self request results lg =
    (match (resolve self request).1 with
     | Ok s => Ok (results ++ [s])
     | Raise e => Raise e
     end, lg ++ (resolve self request).2).
Proof.
  unfold resolve, iteration, answer_of; unfold_M.
  repeat (case_match; simplify_eq/=); rewrite ?app_nil_r; done.
Qed.

(** A turn that returns has appended exactly one string. *)
Lemma iteration_ok self request results lg out lg' :
  iteration self request results lg = (Ok out, lg') →
  ∃ s, out = results ++ [s] ∧ (resolve self request).1 = Ok s.
Proof.
  rewrite iteration_resolve. destruct (resolve self request).1; naive_solver.
Qed.

Lemma loop_app self pre post results lg :
  loop self (pre ++ post) results lg =
    match loop self pre results lg with
    | (Ok results', lg') => loop self post results' lg'
    | (Raise e, lg') => (Raise e, lg')
    end.
Proof.
  revert results lg. induction pre as [|request pre IH]; intros results lg; [done|].
  simpl. unfold mbind, M_bind.
  destruct (iteration self request results lg) as [[results'|e] lg']; [apply IH|done].
Qed.

(** The loop started with [results] and [lg] is the loop started afresh,
    with its output and its log appended to them. *)
Lemma loop_frame self requests results lg :
  loop self requests results lg =
    (match (generate_until self requests []).1 with
     | Ok out => Ok (results ++ out)
     | Raise e => Raise e
     end, lg ++ (generate_until self requests []).2).
Proof.
  unfold generate_until. revert results lg.
  induction requests as [|request requests IH]; intros results lg; simpl.
  { by rewrite !app_nil_r. }
  unfold mbind, M_bind.
  rewrite (iteration_resolve _ _ results lg), (iteration_resolve _ _ [] []).
  destruct (resolve self request) as [[s|e] l]; simpl; [|done].
  rewrite (IH (results ++ [s])), (IH [s] l).
  destruct (loop self requests [] []) as [[out|e] l']; simpl;
    by rewrite <-?(assoc_L (++)).
Qed.

Lemma generate_until_singleton self request :
  generate_until self [request] [] =
    (match (resolve self request).1 with
     | Ok s => Ok [s]
     | Raise e => Raise e
     end, (resolve self request).2).
Proof.
  unfold generate_until; simpl. unfold mbind, M_bind.
  rewrite iteration_resolve. by destruct (resolve self request) as [[s|e] l].
Qed.

(** A batch that returns gives one string per request. *)
Lemma loop_length self requests results lg out lg' :
  loop self requests results lg = (Ok out, lg') →
  length out = (length results + length requests)%nat.
Proof.
  revert results lg. induction requests as [|request requests IH];
    intros results lg; simpl.
  { unfold mret, M_ret. intros [= <- _]. lia. }
  unfold mbind, M_bind.
  destruct (iteration self request results lg) as [[results'|e] l] eqn:Hturn; [|done].
  apply iteration_ok in Hturn as (s & -> & _).
  intros Hloop%IH. rewrite Hloop, length_app. simpl. lia.
Qed.

(** A turn that appends [s] and logs [records] whatever [results] and the
    log are, seen inside a batch. *)
Lemma turn_in_batch self pre request post lg s records :
  (∀ results lg, iteration self request results lg =
                   (Ok (results ++ [s]), lg ++ records)) →
  generate_until self (pre ++ request :: post) lg =
    match generate_until self pre lg with
    | (Ok out1, lg1) =>
        match generate_until self post (lg1 ++ records) with
        | (Ok out2, lg2) => (Ok (out1 ++ s :: out2), lg2)
        | (Raise e, lg2) => (Raise e, lg2)
        end
    | (Raise e, lg1) => (Raise e, lg1)
    end.
Proof.
  intros Hturn. unfold generate_until. rewrite loop_app.
  destruct (loop self pre [] lg) as [[out1|e] lg1]; [|done].
  simpl. unfold mbind, M_bind. rewrite Hturn.
  rewrite (loop_frame _ post (out1 ++ [s])), (loop_frame _ post [] (lg1 ++ records)).
  destruct (generate_until self post []) as [[out2|e] l]; simpl; [|done].
  by rewrite <-(assoc_L (++)).
Qed.

Lemma turn_position self pre request post lg s records out :
  (∀ results lg, iteration self request results lg =
                   (Ok (results ++ [s]), lg ++ records)) →
  outcome (generate_until self (pre ++ request :: post)) lg = Ok out →
  out !! length pre = Some s.
Proof.
  intros Hturn. unfold outcome. rewrite (turn_in_batch _ _ _ _ _ s records Hturn).
  destruct (generate_until self pre lg) as [[out1|e] lg1] eqn:Hpre; [|done].
  apply loop_length in Hpre. simpl in Hpre.
  destruct (generate_until self post _) as [[out2|e] lg2]; [|done].
  simpl. intros [= <-]. by rewrite <-Hpre, list_lookup_middle.
Qed.

(** [key in d] and [d[key]] agree. *)
Lemma getitem_contains {V} (d : dict V) key v :
  getitem d key = Ok v → contains d key = Ok true.
Proof.
  destruct key; simpl; try done.
  destruct (dict_get d s) eqn:E; [|done]. intros _.
  by rewrite bool_decide_eq_true_2.
Qed.

(** The turn raises exactly when one of the lookups of lines 74-84 does. *)
Lemma resolve_raises self request :
  lookup_raises self request = true ↔ ∃ e, (resolve self request).1 = Raise e.
Proof.
  unfold lookup_raises, resolve, iteration, answer_of; unfold_M.
  split.
  - intros Hr. repeat (case_match; simplify_eq/=); eauto.
  - intros [e He]. repeat (case_match; simplify_eq/=); eauto.
Qed.

(** What the four recovered cases of a turn do. *)

Lemma malformed_turn self request results lg :
  malformed request →
  iteration self request results lg =
    (Ok (results ++ [""]), lg ++ [malformed_record request]).
Proof.
  unfold malformed, malformed_record, iteration; unfold_M.
  destruct (arguments request) as [args|]; [|done].
  intros Hlen. by rewrite bool_decide_eq_false_2.
Qed.

Lemma unknown_task_turn self a b c doc_id task split results lg :
  contains (_parent_tasks self) task = Ok false →
  iteration self (Instance [a; b; c; doc_id; task; split]) results lg =
    (Ok (results ++ [""]),
     lg ++ [(ERROR, TaskNotFound task (keys (_parent_tasks self)))]).
Proof. unfold iteration; unfold_M; simpl. by intros ->. Qed.

(** A turn whose lookups succeed reaches the [try] block. *)
Lemma located_turn self a b c doc_id task split belong_to_task docs doc results lg :
  getitem (_parent_tasks self) task = Ok belong_to_task →
  dataset_getitem (dataset belong_to_task) split = Ok docs →
  seq_getitem docs doc_id = Ok doc →
  iteration self (Instance [a; b; c; doc_id; task; split]) results lg =
    try_except
      (answer_of belong_to_task doc doc_id task results)
      (λ e, eval_logger.error (DocToAnswerError doc_id task e);;
            mret (results ++ [""])) lg.
Proof.
  intros Htask Hsplit Hdoc. unfold iteration; simpl.
  unfold mbind, M_bind, lift.
  by rewrite (getitem_contains _ _ _ Htask), Htask, Hsplit, Hdoc.
Qed.

Lemma transform_failure_turn
    self a b c doc_id task split belong_to_task docs doc e results lg :
  getitem (_parent_tasks self) task = Ok belong_to_task →
  dataset_getitem (dataset belong_to_task) split = Ok docs →
  seq_getitem docs doc_id = Ok doc →
  doc_to_answer belong_to_task doc = Raise e →
  iteration self (Instance [a; b; c; doc_id; task; split]) results lg =
    (Ok (results ++ [""]), lg ++ [(ERROR, DocToAnswerError doc_id task e)]).
Proof.
  intros Htask Hsplit Hdoc Hraise.
  rewrite (located_turn _ _ _ _ _ _ _ _ _ _ _ _ Htask Hsplit Hdoc).
  unfold answer_of; unfold_M. by rewrite Hraise.
Qed.

(** Subscripting a sequence outside its range raises. *)
Lemma seq_getitem_out_of_range {A} (l : list A) n :
  n < - Z.of_nat (length l) ∨ Z.of_nat (length l) ≤ n →
  seq_getitem l (PInt n) = Raise (IndexError "list index out of range").
Proof.
  intros Hn. unfold seq_getitem.
  destruct (Z.ltb_spec n 0) as [Hneg|Hpos].
  - destruct (Z.ltb_spec (n + Z.of_nat (length l)) 0) as [|Hge]; [done|lia].
  - destruct (Z.ltb_spec n 0) as [|_]; [lia|].
    rewrite lookup_ge_None_2; [done|lia].
Qed.

(** The outcome of a batch, one request at a time. *)
Lemma generate_until_cons self request requests lg :
  outcome (generate_until self (request :: requests)) lg =
    match (resolve self request).1 with
    | Ok s =>
        match outcome (generate_until self requests) [] with
        | Ok out => Ok (s :: out)
        | Raise e => Raise e
        end
    | Raise e => Raise e
    end.
Proof.
  unfold outcome, generate_until at 1; simpl. unfold mbind, M_bind.
  rewrite iteration_resolve. destruct (resolve self request).1; [|done].
  rewrite loop_frame. by destruct (generate_until self requests []).1.
Qed.

Lemma resolve_ok self request :
  lookup_raises self request = false → ∃ s, (resolve self request).1 = Ok s.
Proof.
  intros Hok. destruct (resolve self request).1 as [s|e] eqn:E; [by exists s|].
  assert (lookup_raises self request = true) by (apply resolve_raises; eauto).
  congruence.
Qed.

(** Resolution reads nothing of the adapter but its registry. *)
Lemma loop_registry self self' requests results lg :
  _parent_tasks self = _parent_tasks self' →
  loop self requests results lg = loop self' requests results lg.
Proof.
  intros Hreg. revert results lg.
  induction requests as [|request requests IH]; intros results lg; [done|].
  simpl. unfold mbind, M_bind.
  replace (iteration self' request results lg)
    with (iteration self request results lg)
    by (unfold iteration; by rewrite Hreg).
  destruct (iteration self request results lg) as [[?|?] ?]; [apply IH|done].
Qed.

(** No call changes the rank or the world size. *)
Lemma exec_all_rank self calls lg :
  rank (exec_all self calls lg).1 = rank self ∧
  world_size (exec_all self calls lg).1 = world_size self.
Proof.
  revert self lg. induction calls as [|c calls IH]; intros self lg; [done|].
  simpl. destruct (exec self c lg) as [self' lg'] eqn:Hexec.
  destruct (IH self' lg') as [-> ->].
  destruct c; simpl in Hexec; by simplify_eq.
Qed.

End Resolution.

(** ** The claims about [generate_until] *)

Section Claims.
Context `{PyRuntime}.
Implicit Types (self : VirtualModel) (request : Request)
  (requests pre post : list Request) (results out : list string) (lg : log).

(** C1, as amended. When the task of a request is registered and its
    split is absent from the task's dataset, or its document index is
    outside the range of the split, the turn raises the [KeyError] or the
    [IndexError] of the lookup: nothing is appended, and a batch that has
    reached the request raises that exception to the caller with the log
    as it was; in no case does the batch return a result. *)
Theorem lookup_failure_propagates
    self pre a b c doc_id (task split : string) belong_to_task e post lg :
  dict_get (_parent_tasks self) task = Some belong_to_task →
  (dataset belong_to_task !! split = None ∧ e = KeyError (PStr split)) ∨
  (∃ docs n, dataset belong_to_task !! split = Some docs ∧ doc_id = PInt n ∧
             (n < - Z.of_nat (length docs) ∨ Z.of_nat (length docs) ≤ n) ∧
             e = IndexError "list index out of range") →
  let request := Instance [a; b; c; doc_id; PStr task; PStr split] in
  (∀ results lg, iteration self request results lg = (Raise e, lg)) ∧
  (∀ out1 lg1, generate_until self pre lg = (Ok out1, lg1) →
     generate_until self (pre ++ request :: post) lg = (Raise e, lg1)) ∧
  (∀ out, outcome (generate_until self (pre ++ request :: post)) lg ≠ Ok out).
Proof.
  intros Htask Hfail request.
  assert (∀ results lg, iteration self request results lg = (Raise e, lg)) as Hturn.
  { intros results lg'. unfold request, iteration; simpl. unfold mbind, M_bind, lift.
    simpl. rewrite Htask, bool_decide_eq_true_2 by eauto. simpl.
    destruct Hfail as [[-> ->]|(docs & n & -> & -> & Hn & ->)]; [done|].
    by rewrite seq_getitem_out_of_range. }
  assert (∀ lg, generate_until self (pre ++ request :: post) lg =
            match generate_until self pre lg with
            | (Ok _, lg1) => (Raise e, lg1)
            | (Raise e', lg1) => (Raise e', lg1)
            end) as Hbatch.
  { intros lg'. unfold generate_until. rewrite loop_app.
    destruct (loop self pre [] lg') as [[out1|e'] lg1]; [|done].
    simpl. unfold mbind, M_bind. by rewrite Hturn. }
  split_and!; [done| |].
  - intros out1 lg1 Hpre. by rewrite Hbatch, Hpre.
  - intros out. unfold outcome. rewrite Hbatch.
    by destruct (generate_until self pre lg) as [[?|?] ?].
Qed.

(** C2, as amended. A batch in which no request raises in the lookups of
    lines 74-84 returns one string per request, and the string at position
    [i] is the one the request at position [i] gives on its own; a batch
    in which some request raises there returns nothing and raises. *)
Theorem generate_until_aligned self requests lg :
  if forallb (λ request, negb (lookup_raises self request)) requests
  then ∃ out, outcome (generate_until self requests) lg = Ok out ∧
         length out = length requests ∧
         ∀ (i : nat) request, requests !! i = Some request →
           ∃ s, out !! i = Some s ∧
                outcome (generate_until self [request]) [] = Ok [s]
  else ∃ e, outcome (generate_until self requests) lg = Raise e.
Proof.
  revert lg. induction requests as [|request requests IH]; intros lg; simpl.
  { exists []. split_and!; [done..|]. intros i request. by rewrite lookup_nil. }
  rewrite generate_until_cons.
  destruct (lookup_raises self request) eqn:Hr; simpl.
  { apply resolve_raises in Hr as [e ->]. by exists e. }
  apply resolve_ok in Hr as [s Hs]. rewrite Hs.
  specialize (IH []).
  destruct (forallb _ requests).
  - destruct IH as (out & -> & Hlen & Hpos). exists (s :: out).
    split_and!; [done|simpl; by rewrite Hlen|].
    intros [|i] request'; simpl.
    + intros [= <-]. exists s. split; [done|].
      unfold outcome. by rewrite generate_until_singleton, Hs.
    + apply Hpos.
  - destruct IH as (e & ->). by exists e.
Qed.

(** C3. A request that exposes no argument tuple, or one whose length is
    not 6, makes its turn append the empty string and log one error
    record, and nothing else: in any batch the requests before it and
    after it are resolved as they are without it, and the empty string
    stands at its position. *)
Theorem malformed_request_isolated self pre request post lg :
  malformed request →
  (∀ results lg, iteration self request results lg =
     (Ok (results ++ [""]), lg ++ [malformed_record request])) ∧
  generate_until self (pre ++ request :: post) lg =
    match generate_until self pre lg with
    | (Ok out1, lg1) =>
        match generate_until self post (lg1 ++ [malformed_record request]) with
        | (Ok out2, lg2) => (Ok (out1 ++ "" :: out2), lg2)
        | (Raise e, lg2) => (Raise e, lg2)
        end
    | (Raise e, lg1) => (Raise e, lg1)
    end ∧
  (∀ out, outcome (generate_until self (pre ++ request :: post)) lg = Ok out →
          out !! length pre = Some "").
Proof.
  intros Hbad.
  assert (∀ results lg, iteration self request results lg =
     (Ok (results ++ [""]), lg ++ [malformed_record request])) as Hturn
    by (intros; by apply malformed_turn).
  split_and!; [done|by apply turn_in_batch|].
  intros out. by apply turn_position with (records := [malformed_record request]).
Qed.

(** C4. A request whose task name is not in the registry makes its turn
    append the empty string and log an error record that lists the keys
    of the registry; the turn returns, and the rest of the batch is
    resolved as it is without the request. *)
Theorem unknown_task_isolated self pre a b c doc_id task split post lg :
  contains (_parent_tasks self) task = Ok false →
  let request := Instance [a; b; c; doc_id; task; split] in
  let record := (ERROR, TaskNotFound task (keys (_parent_tasks self))) in
  (∀ results lg, iteration self request results lg =
     (Ok (results ++ [""]), lg ++ [record])) ∧
  generate_until self (pre ++ request :: post) lg =
    match generate_until self pre lg with
    | (Ok out1, lg1) =>
        match generate_until self post (lg1 ++ [record]) with
        | (Ok out2, lg2) => (Ok (out1 ++ "" :: out2), lg2)
        | (Raise e, lg2) => (Raise e, lg2)
        end
    | (Raise e, lg1) => (Raise e, lg1)
    end ∧
  (∀ out, outcome (generate_until self (pre ++ request :: post)) lg = Ok out →
          out !! length pre = Some "").
Proof.
  intros Habsent request record.
  assert (∀ results lg, iteration self request results lg =
     (Ok (results ++ [""]), lg ++ [record])) as Hturn
    by (intros; by apply unknown_task_turn).
  split_and!; [done|by apply turn_in_batch|].
  intros out. by apply turn_position with (records := [record]).
Qed.

(** C6. When the lookups of a request succeed and [doc_to_answer] raises
    on the document, the exception is caught: the turn appends the empty
    string, logs an error record with the document id, the task name and
    the exception, and returns; the rest of the batch is resolved as it
    is without the request. *)
Theorem transform_failure_isolated
    self pre a b c doc_id task split belong_to_task docs doc e post lg :
  getitem (_parent_tasks self) task = Ok belong_to_task →
  dataset_getitem (dataset belong_to_task) split = Ok docs →
  seq_getitem docs doc_id = Ok doc →
  doc_to_answer belong_to_task doc = Raise e →
  let request := Instance [a; b; c; doc_id; task; split] in
  let record := (ERROR, DocToAnswerError doc_id task e) in
  (∀ results lg, iteration self request results lg =
     (Ok (results ++ [""]), lg ++ [record])) ∧
  generate_until self (pre ++ request :: post) lg =
    match generate_until self pre lg with
    | (Ok out1, lg1) =>
        match generate_until self post (lg1 ++ [record]) with
        | (Ok out2, lg2) => (Ok (out1 ++ "" :: out2), lg2)
        | (Raise e, lg2) => (Raise e, lg2)
        end
    | (Raise e, lg1) => (Raise e, lg1)
    end ∧
  (∀ out, outcome (generate_until self (pre ++ request :: post)) lg = Ok out →
          out !! length pre = Some "").
Proof.
  intros Htask Hsplit Hdoc Hraise request record.
  assert (∀ results lg, iteration self request results lg =
     (Ok (results ++ [""]), lg ++ [record])) as Hturn
    by (intros; by eapply transform_failure_turn).
  split_and!; [done|by apply turn_in_batch|].
  intros out. by apply turn_position with (records := [record]).
Qed.

(** C5. When the lookups of a request succeed and [doc_to_answer]
    returns, the string appended for the request, and standing at its
    position in the output, is: the empty string for [None], with a
    warning record logged; the empty string for an empty list; the first
    element of a list that has one, as [str] gives it, which for a string
    is the string itself; and [str] of the answer for any other value. *)
Theorem answer_normalized
    self a b c doc_id task split belong_to_task docs doc answer :
  getitem (_parent_tasks self) task = Ok belong_to_task →
  dataset_getitem (dataset belong_to_task) split = Ok docs →
  seq_getitem docs doc_id = Ok doc →
  doc_to_answer belong_to_task doc = Ok answer →
  let request := Instance [a; b; c; doc_id; task; split] in
  let s := match answer with
           | PNone => ""
           | PList [] => ""
           | PList (first :: _) => str first
           | _ => str answer
           end in
  let records := match answer with
                 | PNone => [(WARNING, AnswerIsNone doc_id task)]
                 | _ => []
                 end in
  (∀ results lg, iteration self request results lg =
     (Ok (results ++ [s]), lg ++ records)) ∧
  (∀ first rest, answer = PList (PStr first :: rest) → s = first) ∧
  (∀ text, answer = PStr text → s = text) ∧
  (∀ pre post lg out,
     outcome (generate_until self (pre ++ request :: post)) lg = Ok out →
     out !! length pre = Some s).
Proof.
  intros Htask Hsplit Hdoc Hanswer request s records.
  assert (∀ results lg, iteration self request results lg =
     (Ok (results ++ [s]), lg ++ records)) as Hturn.
  { intros results lg. unfold request.
    rewrite (located_turn _ _ _ _ _ _ _ _ _ _ _ _ Htask Hsplit Hdoc).
    unfold answer_of; unfold_M. rewrite Hanswer. subst s records.
    destruct answer as [| | |[|] |]; simpl; by rewrite ?app_nil_r. }
  split_and!; [done|by intros first rest ->|by intros text ->|].
  intros pre post lg out. by apply turn_position with (records := records).
Qed.

(** C7. [loglikelihood] raises [NotImplementedError] on every input, the
    empty batch included, logs nothing and returns no result. *)
Theorem loglikelihood_unsupported self requests lg :
  (∃ msg, loglikelihood self requests lg = (Raise (NotImplementedError msg), lg)) ∧
  (∀ scores, outcome (loglikelihood self requests) lg ≠ Ok scores).
Proof. split; [by eexists|done]. Qed.

(** C8. [generate_until_multi_round] gives what [generate_until] gives on
    the same adapter, batch and log: the same strings or the same
    exception, and the same log; the two calls leave the same adapter. *)
Theorem multi_round_delegates self requests lg :
  generate_until_multi_round self requests lg = generate_until self requests lg ∧
  exec self (CallGenerateUntilMultiRound requests) lg =
    exec self (CallGenerateUntil requests) lg.
Proof. split; reflexivity. Qed.

(** C9. [set_parent_tasks] accepts any registry and stores it as it is.
    After two calls the registry of the adapter is the second one, and a
    resolution call gives what it gives on any adapter whose registry is
    the second one: nothing of the first registry is left. *)
Theorem set_parent_tasks_last_wins self registry1 registry2 lg :
  ∃ self1 lg1 self2 lg2,
    set_parent_tasks self registry1 lg = (Ok self1, lg1) ∧
    set_parent_tasks self1 registry2 lg1 = (Ok self2, lg2) ∧
    _parent_tasks self2 = registry2 ∧
    ∀ batch_size rank world_size requests lg',
      generate_until self2 requests lg' =
      generate_until {| _batch_size := batch_size; _rank := rank;
                        _world_size := world_size;
                        _parent_tasks := registry2 |} requests lg'.
Proof.
  eexists _, _, _, _. split_and!; [done..|].
  intros. by apply loop_registry.
Qed.

(** C10. Whatever [batch_size] and keyword arguments the adapter is built
    with, construction returns an adapter whose rank is 0 and whose world
    size is 1, and they are still 0 and 1 after any sequence of calls. *)
Theorem rank_and_world_size_fixed batch_size kwargs lg :
  ∃ self lg', __init__ batch_size kwargs lg = (Ok self, lg') ∧
    rank self = 0 ∧ world_size self = 1 ∧
    ∀ calls lg'', rank (exec_all self calls lg'').1 = 0 ∧
                  world_size (exec_all self calls lg'').1 = 1.
Proof.
  eexists _, _. split_and!; [done..|].
  intros calls lg''. by destruct (exec_all_rank
    {| _batch_size := batch_size; _rank := 0; _world_size := 1;
       _parent_tasks := [] |} calls lg'') as [-> ->].
Qed.

End Claims.

(** ** The claims on the concrete harness *)

Section Harness.
Import Demo.
Local Existing Instance runtime.

(** A registered task and a split its dataset does not have: the batch
    raises [KeyError], although its second request resolves on its own;
    likewise [IndexError] for index 7 of a split of 7 documents. *)
Lemma missing_split_aborts_batch :
  dict_get (_parent_tasks (model [("T", T)])) "T" = Some T ∧
  dataset T !! "val" = None ∧
  generate_until (model [("T", T)])
    [request 0 "T" "val"; request 3 "T" "test"] [] =
    (Raise (KeyError (PStr "val")), []) ∧
  generate_until (model [("T", T)])
    [request 7 "T" "test"; request 3 "T" "test"] [] =
    (Raise (IndexError "list index out of range"), []) ∧
  generate_until (model [("T", T)]) [request 3 "T" "test"] [] = (Ok ["cat"], []) ∧
  ¬ ∃ out, outcome (generate_until (model [("T", T)])
                      [request 0 "T" "val"; request 3 "T" "test"]) [] = Ok out ∧
           out !! 0%nat = Some "".
Proof.
  split_and!; [by vm_compute..|].
  intros (out & Hout & _). vm_compute in Hout. discriminate Hout.
Qed.

(** A batch of two requests that returns no sequence at all. *)
Lemma out_of_range_returns_nothing :
  generate_until (model [("T", T)])
    [request 3 "T" "test"; request 9 "T" "test"] [] =
    (Raise (IndexError "list index out of range"), []) ∧
  ¬ ∃ out, outcome (generate_until (model [("T", T)])
                      [request 3 "T" "test"; request 9 "T" "test"]) [] = Ok out ∧
           length out = 2%nat.
Proof.
  split; [by vm_compute|].
  intros (out & Hout & _). vm_compute in Hout. discriminate Hout.
Qed.

Lemma lookup_failure_propagates_witness :
  generate_until (model [("T", T)])
    [request 3 "T" "test"; request 0 "T" "val"; request 0 "T" "test"] [] =
    (Raise (KeyError (PStr "val")), []).
Proof.
  assert (dict_get (_parent_tasks (model [("T", T)])) "T" = Some T) as Htask
    by reflexivity.
  assert (dataset T !! "val" = None ∧ KeyError (PStr "val") = KeyError (PStr "val"))
    as Hsplit by (split; [vm_compute|]; reflexivity).
  destruct (lookup_failure_propagates (model [("T", T)])
              [request 3 "T" "test"] (PStr "ctx") (PDict []) PNone (PInt 0)
              "T" "val" T (KeyError (PStr "val")) [request 0 "T" "test"] []
              Htask (or_introl Hsplit)) as (_ & Hbatch & _).
  apply (Hbatch ["cat"] []). vm_compute. reflexivity.
Defined.

Lemma generate_until_aligned_witness :
  ∃ out,
    outcome (generate_until (model [("T", T)])
               [request 4 "T" "test"; short_request; request 1 "T" "test"]) [] = Ok out ∧
    length out = 3%nat ∧
    ∀ (i : nat) r,
      [request 4 "T" "test"; short_request; request 1 "T" "test"] !! i = Some r →
      ∃ s, out !! i = Some s ∧
           outcome (generate_until (model [("T", T)]) [r]) [] = Ok [s].
Proof.
  exact (generate_until_aligned (model [("T", T)])
           [request 4 "T" "test"; short_request; request 1 "T" "test"] []).
Defined.

Lemma malformed_request_isolated_witness :
  malformed short_request ∧
  generate_until (model [("T", T)])
    [request 3 "T" "test"; short_request; request 0 "T" "test"] [] =
    (Ok ["cat"; ""; "dog"], [(ERROR, UnexpectedArgumentsLength 4)]).
Proof.
  assert (malformed short_request) as Hbad by (unfold malformed; simpl; lia).
  split; [exact Hbad|].
  destruct (malformed_request_isolated (model [("T", T)])
              [request 3 "T" "test"] short_request [request 0 "T" "test"] []
              Hbad) as (_ & Hbatch & _).
  etrans; [exact Hbatch|]. vm_compute. reflexivity.
Defined.

Lemma unknown_task_isolated_witness :
  contains (_parent_tasks (model [("T", T)])) (PStr "unknown_task") = Ok false ∧
  generate_until (model [("T", T)])
    [request 3 "T" "test"; request 0 "unknown_task" "test"; request 0 "T" "test"] [] =
    (Ok ["cat"; ""; "dog"], [(ERROR, TaskNotFound (PStr "unknown_task") ["T"])]).
Proof.
  assert (contains (_parent_tasks (model [("T", T)])) (PStr "unknown_task") = Ok false)
    as Habsent by (vm_compute; reflexivity).
  split; [exact Habsent|].
  destruct (unknown_task_isolated (model [("T", T)])
              [request 3 "T" "test"] (PStr "ctx") (PDict []) PNone (PInt 0)
              (PStr "unknown_task") (PStr "test") [request 0 "T" "test"] []
              Habsent) as (_ & Hbatch & _).
  etrans; [exact Hbatch|]. vm_compute. reflexivity.
Defined.

Lemma transform_failure_isolated_witness :
  doc_to_answer T (PStr "broken") = Raise (TypeError "object is not subscriptable") ∧
  generate_until (model [("T", T)])
    [request 3 "T" "test"; request 6 "T" "test"; request 0 "T" "test"] [] =
    (Ok ["cat"; ""; "dog"],
     [(ERROR, DocToAnswerError (PInt 6) (PStr "T")
                (TypeError "object is not subscriptable"))]).
Proof.
  assert (doc_to_answer T (PStr "broken") =
          Raise (TypeError "object is not subscriptable")) as Hraise by reflexivity.
  split; [exact Hraise|].
  assert (getitem (_parent_tasks (model [("T", T)])) (PStr "T") = Ok T) as Htask
    by reflexivity.
  assert (seq_getitem
            [doc (PStr "dog"); doc PNone; doc (PList []); doc (PStr "cat");
             doc (PList [PStr "cat"; PStr "dog"]); doc (PInt 42); PStr "broken"]
            (PInt 6) = Ok (PStr "broken")) as Hdoc by reflexivity.
  assert (dataset_getitem (dataset T) (PStr "test") =
          Ok [doc (PStr "dog"); doc PNone; doc (PList []); doc (PStr "cat");
              doc (PList [PStr "cat"; PStr "dog"]); doc (PInt 42); PStr "broken"])
    as Hsplit by (vm_compute; reflexivity).
  destruct (transform_failure_isolated (model [("T", T)])
              [request 3 "T" "test"] (PStr "ctx") (PDict []) PNone (PInt 6)
              (PStr "T") (PStr "test") T _ _ _ [request 0 "T" "test"] []
              Htask Hsplit Hdoc Hraise) as (_ & Hbatch & _).
  etrans; [exact Hbatch|]. vm_compute. reflexivity.
Defined.

Lemma answer_normalized_witness :
  doc_to_answer T (doc (PList [PStr "cat"; PStr "dog"])) =
    Ok (PList [PStr "cat"; PStr "dog"]) ∧
  iteration (model [("T", T)]) (request 4 "T" "test") ["dog"] [] =
    (Ok ["dog"; "cat"], []).
Proof.
  assert (doc_to_answer T (doc (PList [PStr "cat"; PStr "dog"])) =
          Ok (PList [PStr "cat"; PStr "dog"])) as Hanswer by reflexivity.
  split; [exact Hanswer|].
  assert (getitem (_parent_tasks (model [("T", T)])) (PStr "T") = Ok T) as Htask
    by reflexivity.
  assert (seq_getitem
            [doc (PStr "dog"); doc PNone; doc (PList []); doc (PStr "cat");
             doc (PList [PStr "cat"; PStr "dog"]); doc (PInt 42); PStr "broken"]
            (PInt 4) = Ok (doc (PList [PStr "cat"; PStr "dog"]))) as Hdoc
    by reflexivity.
  assert (dataset_getitem (dataset T) (PStr "test") =
          Ok [doc (PStr "dog"); doc PNone; doc (PList []); doc (PStr "cat");
              doc (PList [PStr "cat"; PStr "dog"]); doc (PInt 42); PStr "broken"])
    as Hsplit by (vm_compute; reflexivity).
  destruct (answer_normalized (model [("T", T)])
              (PStr "ctx") (PDict []) PNone (PInt 4) (PStr "T") (PStr "test")
              T _ _ _ Htask Hsplit Hdoc Hanswer) as (Hturn & _).
  exact (Hturn ["dog"] []).
Defined.

End Harness.

(** ** Further properties of the adapter *)

Section Further.
Context `{PyRuntime}.
Implicit Types (self : VirtualModel) (request : Request)
  (requests pre post : list Request) (results out : list string) (lg : log).

(** A turn logs nothing, or it logs one warning or error record and the
    string it appends is empty; a turn that raises logs nothing. *)
Lemma resolve_records self request :
  match resolve self request with
  | (Ok s, records) =>
      records = [] ∨ (s = "" ∧ ∃ record, records = [record] ∧ record.1 ≠ INFO)
  | (Raise _, records) => records = []
  end.
Proof.
  unfold resolve, iteration, answer_of; unfold_M.
  repeat (case_match; simplify_eq/=); eauto; right; split; eauto.
Qed.

Lemma generate_until_log self requests lg :
  (generate_until self requests lg).2 = lg ++ (generate_until self requests []).2.
Proof. unfold generate_until at 1. by rewrite loop_frame. Qed.

Lemma generate_until_cons_log self request requests :
  (generate_until self (request :: requests) []).2 =
    (resolve self request).2 ++
    match (resolve self request).1 with
    | Ok _ => (generate_until self requests []).2
    | Raise _ => []
    end.
Proof.
  unfold generate_until at 1; simpl. unfold mbind, M_bind.
  rewrite iteration_resolve. destruct (resolve self request) as [[s|e] l]; simpl.
  - by rewrite loop_frame.
  - by rewrite app_nil_r.
Qed.

(** On an empty registry a turn that can hash the task appends the empty
    string and logs one record. *)
Lemma unconfigured_turn self request results lg :
  _parent_tasks self = [] →
  task_hashable request = true →
  ∃ record, iteration self request results lg =
              (Ok (results ++ [""]), lg ++ [record]).
Proof.
  intros Hreg Hhash. unfold iteration. rewrite Hreg. unfold task_hashable in Hhash.
  destruct (arguments request) as [args|]; unfold_M; [|by eexists].
  case_bool_decide as Hlen; [|by eexists].
  destruct args as [|a [|b [|c [|doc_id [|task [|split [|]]]]]]]; try done.
  simpl. destruct task; simplify_eq/=; by eexists.
Qed.

Lemma exec_log self c lg :
  exec self c lg = ((exec self c []).1, lg ++ (exec self c []).2).
Proof.
  destruct c; simpl; rewrite ?app_nil_r; try done.
  - unfold generate_until. by rewrite loop_frame, (loop_frame _ _ [] []).
  - unfold generate_until_multi_round, generate_until.
    by rewrite loop_frame, (loop_frame _ _ [] []).
Qed.

(** The strings of a returned batch are those of its requests, one by one. *)
Lemma generate_until_positions self requests lg out (i : nat) s :
  outcome (generate_until self requests) lg = Ok out →
  out !! i = Some s →
  ∃ request, requests !! i = Some request ∧ (resolve self request).1 = Ok s.
Proof.
  revert lg out i. induction requests as [|request requests IH]; intros lg out i.
  { intros [= <-]. by rewrite lookup_nil. }
  rewrite generate_until_cons.
  destruct (resolve self request).1 as [s'|e] eqn:Hs; [|done].
  destruct (outcome (generate_until self requests) []) as [out'|e] eqn:Hout; [|done].
  intros [= <-]. destruct i as [|i]; simpl.
  - intros [= <-]. by exists request.
  - by apply (IH []).
Qed.

(** A turn that appends a string other than the empty one has found a
    document and got an answer for it. *)
Lemma resolve_nonempty self request s :
  (resolve self request).1 = Ok s → s ≠ "" →
  ∃ a b c doc_id task split belong_to_task docs doc answer,
    request = Instance [a; b; c; doc_id; task; split] ∧
    getitem (_parent_tasks self) task = Ok belong_to_task ∧
    dataset_getitem (dataset belong_to_task) split = Ok docs ∧
    seq_getitem docs doc_id = Ok doc ∧
    doc_to_answer belong_to_task doc = Ok answer ∧
    (s = str answer ∨ ∃ first rest, answer = PList (first :: rest) ∧ s = str first).
Proof.
  unfold resolve, iteration; unfold_M.
  destruct request as [args|t]; simpl; [|by intros [= <-]].
  case_bool_decide as Hlen; [|by intros [= <-]].
  destruct args as [|a [|b [|c [|doc_id [|task [|split [|]]]]]]]; try done.
  clear Hlen. simpl.
  destruct (contains (_parent_tasks self) task) as [[]|] eqn:Hin; simpl;
    [|by intros [= <-]|done].
  destruct (getitem (_parent_tasks self) task) as [belong_to_task|] eqn:Htask; [|done].
  destruct (dataset_getitem (dataset belong_to_task) split) as [docs|] eqn:Hsplit;
    [|done].
  destruct (seq_getitem docs doc_id) as [doc|] eqn:Hdoc; [|done].
  unfold answer_of; unfold_M.
  destruct (doc_to_answer belong_to_task doc) as [answer|] eqn:Hanswer; simpl;
    [|by intros [= <-]].
  intros Hs Hne. exists a, b, c, doc_id, task, split, belong_to_task, docs, doc, answer.
  split_and!; try done.
  destruct answer as [| | |[|first rest]|]; simplify_eq/=; eauto.
Qed.

Lemma replace_prompt_turn self a b c request results lg :
  iteration self (replace_prompt a b c request) results lg =
  iteration self request results lg.
Proof.
  destruct request as [args|t]; [|done].
  by destruct args as [|a' [|b' [|c' [|doc_id [|task [|split [|]]]]]]].
Qed.

(** X1. A batch can be cut anywhere: resolving [pre ++ post] is resolving
    [pre] and then [post] on the log that [pre] leaves, with the two
    outputs one after the other; an exception of either part is the
    exception of the whole. *)
Theorem generate_until_app self pre post lg :
  generate_until self (pre ++ post) lg =
    match generate_until self pre lg with
    | (Ok out1, lg1) =>
        match generate_until self post lg1 with
        | (Ok out2, lg2) => (Ok (out1 ++ out2), lg2)
        | (Raise e, lg2) => (Raise e, lg2)
        end
    | (Raise e, lg1) => (Raise e, lg1)
    end.
Proof.
  unfold generate_until. rewrite loop_app.
  destruct (loop self pre [] lg) as [[out1|e] lg1]; [|done].
  rewrite (loop_frame _ post out1), (loop_frame _ post [] lg1).
  by destruct (generate_until self post []) as [[out2|e] l].
Qed.

(** X2. An adapter on which [set_parent_tasks] was never called resolves
    nothing: for a batch whose task fields can all be hashed it returns
    the empty string at every position and logs one record per request. *)
Theorem unconfigured_resolves_nothing batch_size kwargs requests lg lg0 :
  forallb task_hashable requests = true →
  ∃ self lg', __init__ batch_size kwargs lg0 = (Ok self, lg') ∧
    outcome (generate_until self requests) lg = Ok (replicate (length requests) "") ∧
    length (generate_until self requests lg).2 = (length lg + length requests)%nat.
Proof.
  intros Hhash. eexists _, _. split; [done|].
  set (self := {| _batch_size := batch_size; _rank := 0; _world_size := 1;
                  _parent_tasks := [] |}).
  unfold outcome, generate_until.
  assert (∀ results lg,
    (loop self requests results lg).1 = Ok (results ++ replicate (length requests) "") ∧
    length (loop self requests results lg).2 = (length lg + length requests)%nat) as Hloop.
  { induction requests as [|request requests IH]; intros results lg1; simpl.
    { rewrite app_nil_r. split; [done|lia]. }
    apply andb_prop in Hhash as [Hhash1 Hhash2].
    unfold mbind, M_bind.
    destruct (unconfigured_turn self request results lg1 eq_refl Hhash1) as [record ->].
    destruct (IH Hhash2 (results ++ [""]) (lg1 ++ [record])) as [-> ->].
    split; [by rewrite <-(assoc_L (++))|]. rewrite length_app. simpl. lia. }
  apply (Hloop [] lg).
Qed.

(** X3. The batch size the adapter reports is the value it was built
    with, after any sequence of calls. *)
Theorem batch_size_kept batch_size0 kwargs lg :
  ∃ self lg', __init__ batch_size0 kwargs lg = (Ok self, lg') ∧
    ∀ calls lg'', batch_size (exec_all self calls lg'').1 = batch_size0.
Proof.
  eexists _, _. split; [done|].
  assert (∀ calls self lg, batch_size (exec_all self calls lg).1 = batch_size self)
    as Hkept.
  { induction calls as [|c calls IH]; intros self lg1; [done|].
    simpl. destruct (exec self c lg1) as [self' lg'] eqn:Hexec.
    rewrite IH. destruct c; simpl in Hexec; by simplify_eq. }
  intros calls lg''. by rewrite Hkept.
Qed.

(** X4. After any sequence of calls the registry of the adapter is the
    argument of the last [set_parent_tasks] among them, and the registry
    it had before when there is none: no other call touches it. *)
Theorem registry_is_last_set self calls lg :
  _parent_tasks (exec_all self calls lg).1 = last_registry calls (_parent_tasks self).
Proof.
  revert self lg. induction calls as [|c calls IH]; intros self lg; [done|].
  simpl. destruct (exec self c lg) as [self' lg'] eqn:Hexec.
  rewrite IH. destruct c; simpl in Hexec; by simplify_eq.
Qed.

(** X5. No call reads or erases the log: the adapter after a sequence of
    calls does not depend on the log they start from, and the log after
    them is that log followed by the records the calls add. *)
Theorem log_only_grows self calls lg :
  exec_all self calls lg =
    ((exec_all self calls []).1, lg ++ (exec_all self calls []).2).
Proof.
  revert self lg. induction calls as [|c calls IH]; intros self lg; simpl.
  { by rewrite app_nil_r. }
  rewrite (exec_log self c lg).
  destruct (exec self c []) as [self' added]; simpl.
  rewrite (IH self' (lg ++ added)), (IH self' added).
  by rewrite <-(assoc_L (++)).
Qed.

(** X6. A batch logs at most one record per request, whether it returns
    or raises. *)
Theorem at_most_one_record_per_request self requests lg :
  (length (generate_until self requests lg).2 ≤ length lg + length requests)%nat.
Proof.
  rewrite generate_until_log, length_app. apply Nat.add_le_mono_l.
  induction requests as [|request requests IH]; [done|].
  rewrite generate_until_cons_log, length_app.
  pose proof (resolve_records self request) as Hrec.
  destruct (resolve self request) as [[s|e] records]; simpl in *.
  - destruct Hrec as [->|(_ & record & -> & _)]; simpl; lia.
  - rewrite Hrec. simpl. lia.
Qed.

(** X7. In a batch that returns, every record logged stands for an empty
    string of the output: the records added are warnings or errors, and
    there are no more of them than empty strings in the output. *)
Theorem records_mark_empty_answers self requests lg out lg' :
  generate_until self requests lg = (Ok out, lg') →
  ∃ added, lg' = lg ++ added ∧
    (length added ≤ count_empty out)%nat ∧
    Forall (λ record, record.1 ≠ INFO) added.
Proof.
  intros Hrun. exists (generate_until self requests []).2.
  assert (outcome (generate_until self requests) [] = Ok out) as Hout.
  { unfold outcome. unfold generate_until in Hrun at 1. rewrite loop_frame in Hrun.
    destruct (generate_until self requests []).1; by simplify_eq/=. }
  split. { rewrite <-generate_until_log. by rewrite Hrun. }
  clear Hrun. revert out Hout.
  induction requests as [|request requests IH]; intros out.
  { intros [= <-]. split; [done|constructor]. }
  rewrite generate_until_cons, generate_until_cons_log.
  pose proof (resolve_records self request) as Hrec.
  destruct (resolve self request) as [[s|e] records]; simpl in *; [|done].
  destruct (outcome (generate_until self requests) []) as [out'|e]; [|done].
  intros [= <-]. destruct (IH out' eq_refl) as [Hlen Hall].
  unfold count_empty in *. rewrite length_app, filter_cons.
  destruct Hrec as [->|(-> & record & -> & Hlevel)]; simpl.
  - split; [|done]. case_decide; simpl; lia.
  - split; [lia|by constructor].
Qed.

(** X8. The adapter never makes up an answer: a string of the output
    other than the empty one stands at the position of a request of six
    fields whose task is registered, whose document was found, and for
    whose document [doc_to_answer] returned; the string is [str] of that
    answer, or of its first element when the answer is a list. *)
Theorem nonempty_answer_is_genuine self requests lg out (i : nat) s :
  outcome (generate_until self requests) lg = Ok out →
  out !! i = Some s →
  s ≠ "" →
  ∃ a b c doc_id task split belong_to_task docs doc answer,
    requests !! i = Some (Instance [a; b; c; doc_id; task; split]) ∧
    getitem (_parent_tasks self) task = Ok belong_to_task ∧
    dataset_getitem (dataset belong_to_task) split = Ok docs ∧
    seq_getitem docs doc_id = Ok doc ∧
    doc_to_answer belong_to_task doc = Ok answer ∧
    (s = str answer ∨ ∃ first rest, answer = PList (first :: rest) ∧ s = str first).
Proof.
  intros Hout Hs Hne.
  destruct (generate_until_positions _ _ _ _ _ _ Hout Hs) as (request & Hi & Hres).
  destruct (resolve_nonempty _ _ _ Hres Hne)
    as (a & b & c & doc_id & task & split & bt & docs & doc & answer & -> & Hrest).
  by exists a, b, c, doc_id, task, split, bt, docs, doc, answer.
Qed.

(** X9. The first three fields of a request, the prompt arguments, are
    never read: replacing them in every request of a batch changes
    neither the output, nor the exception, nor the log. *)
Theorem prompt_arguments_ignored self a b c requests lg :
  generate_until self (replace_prompt a b c <$> requests) lg =
  generate_until self requests lg.
Proof.
  unfold generate_until. generalize (@nil string). revert lg.
  induction requests as [|request requests IH]; intros lg results; [done|].
  simpl. unfold mbind, M_bind. rewrite replace_prompt_turn.
  destruct (iteration self request results lg) as [[results'|e] lg']; [apply IH|done].
Qed.

End Further.

(** ** The further properties on the concrete harness *)

Section FurtherHarness.
Import Demo.
Local Existing Instance runtime.

Lemma unconfigured_resolves_nothing_witness :
  ∃ self lg',
    __init__ (PInt 4) [("device", PStr "cuda")] [] = (Ok self, lg') ∧
    outcome (generate_until self
               [request 3 "T" "test"; short_request; Other "<class 'int'>"]) [] =
      Ok [""; ""; ""] ∧
    length (generate_until self
              [request 3 "T" "test"; short_request; Other "<class 'int'>"] []).2 =
      3%nat.
Proof.
  apply (unconfigured_resolves_nothing (PInt 4) [("device", PStr "cuda")]
           [request 3 "T" "test"; short_request; Other "<class 'int'>"] [] []).
  reflexivity.
Defined.

Lemma records_mark_empty_answers_witness :
  ∃ added,
    [(WARNING, AnswerIsNone (PInt 1) (PStr "T"));
     (ERROR, UnexpectedArgumentsLength 4)] = [] ++ added ∧
    (length added ≤ count_empty ["cat"; ""; ""; ""])%nat ∧
    Forall (λ record, record.1 ≠ INFO) added.
Proof.
  apply (records_mark_empty_answers (model [("T", T)])
           [request 3 "T" "test"; request 1 "T" "test"; request 2 "T" "test";
            short_request] []).
  vm_compute. reflexivity.
Defined.

Lemma nonempty_answer_is_genuine_witness :
  ∃ a b c doc_id task split belong_to_task docs doc answer,
    [short_request; request 4 "T" "test"] !! 1%nat =
      Some (Instance [a; b; c; doc_id; task; split]) ∧
    getitem (_parent_tasks (model [("T", T)])) task = Ok belong_to_task ∧
    dataset_getitem (dataset belong_to_task) split = Ok docs ∧
    seq_getitem docs doc_id = Ok doc ∧
    doc_to_answer belong_to_task doc = Ok answer ∧
    ("cat" = str answer ∨ ∃ first rest, answer = PList (first :: rest) ∧ "cat" = str first).
Proof.
  apply (nonempty_answer_is_genuine (model [("T", T)])
           [short_request; request 4 "T" "test"] [] [""; "cat"] 1 "cat").
  - vm_compute. reflexivity.
  - reflexivity.
  - discriminate.
Defined.

End FurtherHarness.
